(** * Mini-URL: a model of [main.py] and of the URL registry it relies on

    The Flask application of [main.py] is embedded as state-passing view
    functions over a [world]: the [User] table of the relational store,
    the short-code store reached through the [utility] module, and the
    flask_login session.  The bcrypt library is a parameter of the
    development; the [utility] module is not part of the sources and is
    modelled from the specification, in a section of its own. *)

From Stdlib Require Import Ascii String.
From stdpp Require Import gmap strings list.

Open Scope string_scope.
Open Scope nat_scope.
Open Scope list_scope.

(** ** HTTP boundary *)

Inductive http_method := GET | POST | HEAD | PUT | PATCH | DELETE | OPTIONS.

Global Instance http_method_eq_dec : EqDecision http_method.
Proof. solve_decision. Defined.

(** [request.form] keeps, for every submitted key, the first value;
    [csrf_valid] says whether the CSRF token that every [FlaskForm]
    carries validates. *)
Record request := Request {
  method : http_method;
  form : gmap string string;
  csrf_valid : bool
}.

(** What a view returns.  [body] is a plain string returned from a view,
    [bad_request] the 400 that Werkzeug produces for a missing form key,
    [unauthorized] what flask_login answers for a [login_required] view
    without a logged-in user, [options_reply] Flask's own answer to OPTIONS,
    [server_error] an exception escaping a view. *)
Inductive response :=
  | render_template (name : string)
  | redirect (location : string)
  | body (text : string)
  | bad_request
  | unauthorized (login_view : string)
  | method_not_allowed
  | options_reply
  | server_error (exn : string).

Global Instance response_eq_dec : EqDecision response.
Proof. solve_decision. Defined.

(** [url_for] over the routes that [main.py] declares; the dashboard is
    mounted at ['/dasboard']. *)
Definition url_for (endpoint : string) : string :=
  if String.eqb endpoint "login" then "/login"
  else if String.eqb endpoint "dashboard" then "/dasboard"
  else if String.eqb endpoint "logout" then "/logout"
  else if String.eqb endpoint "register" then "/register"
  else if String.eqb endpoint "url" then "/url"
  else "/".

(** ** The [User] table *)

Record User := mkUser {
  id : nat;
  username : string;
  password : string;
  email : string
}.

Global Instance User_eq_dec : EqDecision User.
Proof. solve_decision. Defined.

(** The state the views act on. *)
Record world := World {
  users : list User;               (* rows of [User], in primary-key order *)
  urls : gmap string string;       (* short code -> long URL, behind [utility] *)
  current_user : option nat        (* id held by the flask_login session *)
}.

Definition set_users (tbl : list User) (w : world) : world :=
  {| users := tbl; urls := urls w; current_user := current_user w |}.

Definition set_current_user (cu : option nat) (w : world) : world :=
  {| users := users w; urls := urls w; current_user := cu |}.

Definition set_urls (store : gmap string string) (w : world) : world :=
  {| users := users w; urls := store; current_user := current_user w |}.

(** [User.query.filter_by(username=u).first()] and its email sibling. *)
Definition first_by_username (u : string) (tbl : list User) : option User :=
  find (λ r, String.eqb (username r) u) tbl.

Definition first_by_email (e : string) (tbl : list User) : option User :=
  find (λ r, String.eqb (email r) e) tbl.

(** [User.query.get(int(user_id))] of the [user_loader]. *)
Definition load_user (user_id : nat) (tbl : list User) : option User :=
  find (λ r, Nat.eqb (id r) user_id) tbl.

(** Python's [a or b] on objects that are falsy only when absent. *)
Definition py_or {A} (a b : option A) : option A :=
  match a with
  | Some x => Some x
  | None => b
  end.

(** Python's [not x] for such an object. *)
Definition py_not {A} (a : option A) : bool :=
  match a with
  | Some _ => false
  | None => true
  end.

Definition check_username (u : string) (tbl : list User) : bool :=
  py_not (first_by_username u tbl).

Definition check_email (e : string) (tbl : list User) : bool :=
  py_not (first_by_email e tbl).

(** The primary key that the store gives to the next row. *)
Definition next_id (tbl : list User) : nat :=
  S (foldr Nat.max 0 (map id tbl)).

(** [db.session.add(row); db.session.commit()]: the column [username] is
    declared [unique=True], so the store refuses a second row with the same
    username (an [IntegrityError]); [email] carries no such constraint. *)
Definition db_add_commit (u pw e : string) (tbl : list User) : option (list User) :=
  if existsb (λ r, String.eqb (username r) u) tbl then None
  else Some (tbl ++ [mkUser (next_id tbl) u pw e]).

(** ** WTForms validation *)

(** What calling a validator gives: it returns, or it raises. *)
Inductive outcome (A : Type) :=
  | Returns (a : A)
  | Raises (msg : string).
Arguments Returns {A} a.
Arguments Raises {A} msg.

(** [InputRequired]: the field was submitted with a non-empty first value. *)
Definition InputRequired (raw : option string) : bool :=
  match raw with
  | Some v => negb (String.eqb v "")
  | None => false
  end.

(** [Length(min, max)] on the field's data ([None] counts as length 0). *)
Definition Length (min max : nat) (data : option string) : bool :=
  let n := match data with Some v => String.length v | None => 0 end in
  (min <=? n) && (n <=? max).

(** The inline validator of [RegisterForm]: on a taken username it builds a
    [ValidationError] and hands it back with [return]; it never raises. *)
Definition validate_username (data : option string) (tbl : list User)
  : outcome (option string) :=
  match data with
  | Some u =>
      match first_by_username u tbl with
      | Some _ =>
          Returns (Some "That username is already exists. Please choose a different one.")
      | None => Returns None
      end
  | None => Returns None
  end.

(** WTForms takes an inline validator to fail only when it raises. *)
Definition inline_passes {A} (o : outcome A) : bool :=
  match o with
  | Returns _ => true
  | Raises _ => false
  end.

(** [is_submitted()] of flask_wtf. *)
Definition is_submitted (req : request) : bool :=
  bool_decide (method req ∈ [POST; PUT; PATCH; DELETE]).

Definition RegisterForm_validate (req : request) (tbl : list User) : bool :=
  csrf_valid req
  && (InputRequired (form req !! "username") && Length 4 36 (form req !! "username")
      && inline_passes (validate_username (form req !! "username") tbl))
  && (InputRequired (form req !! "password") && Length 8 16 (form req !! "password"))
  && (InputRequired (form req !! "email") && Length 8 16 (form req !! "email")).

Definition LoginForm_validate (req : request) : bool :=
  csrf_valid req
  && (InputRequired (form req !! "username") && Length 4 36 (form req !! "username"))
  && (InputRequired (form req !! "password") && Length 8 16 (form req !! "password")).

(** [field.data] of a field that was submitted. *)
Definition data (k : string) (req : request) : string :=
  default "" (form req !! k).

(** ** The URL registry behind [utility] *)

(** Modelled from the spec: [get_long_url] of the [utility] module, which
    [main.py] imports and which is not among the sources.  It "looks up
    short_code in the mapping store", gives "the stored long_url on a hit"
    and a not-found value on a miss; [redirection] tests that value with
    [is False], so [None] stands for Python's [False]. *)
Definition get_long_url (short_url : string) (store : gmap string string)
  : option string :=
  store !! short_url.

(** ** The views of [main.py] *)

Definition home (w : world) : response * world :=
  (render_template "base.html", w).

Definition url (req : request) (w : world) : response * world :=
  if decide (method req = POST) then
    match form req !! "url" with
    | Some v => (body v, w)
    | None => (bad_request, w)
    end
  else (render_template "url_page.html", w).

Definition redirection (short_url : string) (w : world) : response * world :=
  match get_long_url short_url (urls w) with
  | None => (render_template "error/urlnotfound.html", w)
  | Some long_url => (redirect long_url, w)
  end.

(** [@login_required]: the session must hold a user that still loads. *)
Definition login_required (view : world → response * world) (w : world)
  : response * world :=
  match current_user w ≫= λ i, load_user i (users w) with
  | Some _ => view w
  | None => (unauthorized (url_for "login"), w)
  end.

Definition dashboard : world → response * world :=
  login_required (λ w, (render_template "user/dashboard.html", w)).

Definition logout : world → response * world :=
  login_required (λ w, (redirect (url_for "login"), set_current_user None w)).

(** The two development routes only read the store, through
    [get_all_docs], and render what they read. *)
Definition all_urls (w : world) : response * world :=
  (render_template "dev/all_urls.html", w).

Definition all_docs (w : world) : response * world :=
  (render_template "dev/all_docs.html", w).

(** The routes, and the methods that each [@app.route] admits (Flask adds
    HEAD to a route that admits GET, and answers OPTIONS itself). *)
Inductive route :=
  | Home | Url | Login | Dashboard | Logout | Register
  | Redirection (short_url : string)
  | AllUrls | AllDocs.

Global Instance route_eq_dec : EqDecision route.
Proof. solve_decision. Defined.

Definition admits (r : route) (m : http_method) : bool :=
  match r with
  | Home | Redirection _ | AllUrls | AllDocs =>
      bool_decide (m ∈ [GET; HEAD])
  | Url | Login | Dashboard | Logout | Register =>
      bool_decide (m ∈ [GET; HEAD; POST])
  end.

Section Views.

(** Flask-Bcrypt: hashing draws a random salt, here an explicit input. *)
Variable salt : Type.
Variable generate_password_hash : salt → string → string.
Variable check_password_hash : string → string → bool.

(** The branch of [login] under [if form.validate_on_submit():], on the
    data of the two fields; finding no user falls through to the last
    [return] of the view. *)
Definition login_validated (identifier pw : string) (w : world)
  : response * world :=
  match py_or (first_by_username identifier (users w))
              (first_by_email identifier (users w)) with
  | Some user =>
      if check_password_hash (password user) pw
      then (redirect (url_for "dashboard"), set_current_user (Some (id user)) w)
      else (render_template "userauth/login/login_wrong_info.html", w)
  | None => (render_template "userauth/login/login.html", w)
  end.

Definition login (req : request) (w : world) : response * world :=
  if is_submitted req && LoginForm_validate req then
    login_validated (data "username" req) (data "password" req) w
  else (render_template "userauth/login/login.html", w).

(** The branch of [register] under [if form.validate_on_submit():]. *)
Definition register_validated (s : salt) (u pw e : string) (w : world)
  : response * world :=
  if negb (check_username u (users w)) then
    (render_template "userauth/register/register_username_exists.html", w)
  else if negb (check_email e (users w)) then
    (render_template "userauth/register/register_email_exists.html", w)
  else
    let hashed_password := generate_password_hash s pw in
    match db_add_commit u hashed_password e (users w) with
    | Some tbl => (redirect (url_for "login"), set_users tbl w)
    | None => (server_error "IntegrityError", w)
    end.

Definition register (s : salt) (req : request) (w : world) : response * world :=
  if is_submitted req && RegisterForm_validate req (users w) then
    register_validated s (data "username" req) (data "password" req)
                       (data "email" req) w
  else (render_template "userauth/register/register.html", w).

Definition dispatch (r : route) (s : salt) (req : request) (w : world)
  : response * world :=
  if decide (method req = OPTIONS) then (options_reply, w)
  else if admits r (method req) then
    match r with
    | Home => home w
    | Url => url req w
    | Login => login req w
    | Dashboard => dashboard w
    | Logout => logout w
    | Register => register s req w
    | Redirection short_url => redirection short_url w
    | AllUrls => all_urls w
    | AllDocs => all_docs w
    end
  else (method_not_allowed, w).

(** A run of the application: one request after the other. *)
Fixpoint run (trace : list (route * salt * request)) (w : world) : world :=
  match trace with
  | [] => w
  | (r, s, req) :: rest => run rest (dispatch r s req w).2
  end.

End Views.

Arguments login_validated check_password_hash identifier pw w : assert.
Arguments login check_password_hash req w : assert.
Arguments register_validated {salt} generate_password_hash s u pw e w : assert.
Arguments register {salt} generate_password_hash s req w : assert.
Arguments dispatch {salt} generate_password_hash check_password_hash r s req w : assert.
Arguments run {salt} generate_password_hash check_password_hash trace w : assert.

Definition empty_world : world := World [] ∅ None.

(** ** Allocation of short codes *)

Section Registry.

(** The scheme that produces a code is left open by the specification; it
    is a parameter, from the long URL and the store to the code.  The one
    constraint on it, that the code is not a key of the store, is the
    hypothesis [generate_code_fresh] of the theorems that need it. *)
Variable generate_code : string → gmap string string → string.

(** Modelled from the spec: [allocate] of the URL registry, which the
    sources do not contain.  "Given a long URL, produces a short code,
    persists the (short_code, long_url) pair, and returns the new code";
    "the generated code must not collide with any existing code". *)
Definition allocate (long_url : string) (store : gmap string string)
  : string * gmap string string :=
  let short_code := generate_code long_url store in
  (short_code, <[short_code := long_url]> store).

(** Allocating a list of long URLs in turn: the codes handed out, in
    order, and the store that results. *)
Fixpoint allocate_all (long_urls : list string) (store : gmap string string)
  : list string * gmap string string :=
  match long_urls with
  | [] => ([], store)
  | long_url :: rest =>
      let '(c, store1) := allocate long_url store in
      let '(cs, store2) := allocate_all rest store1 in
      (c :: cs, store2)
  end.

End Registry.

(** Modelled from the spec: one collision-free scheme among those it
    names, "base62 encoding of a monotonically increasing identifier",
    "checked against the store": the identifier is counted up until its
    numeral is free. *)
Definition base62_alphabet : list ascii :=
  list_ascii_of_string
    "0123456789abcdefghijklmnopqrstuvwxyzABCDEFGHIJKLMNOPQRSTUVWXYZ".

Definition base62_digit (d : nat) : ascii :=
  nth d base62_alphabet "0"%char.

(** The digits of [n] in base 62, least significant first. *)
Fixpoint base62_digits (fuel n : nat) : list nat :=
  match fuel with
  | 0 => []
  | S fuel' =>
      n mod 62 :: (if n / 62 =? 0 then [] else base62_digits fuel' (n / 62))
  end.

Definition base62 (n : nat) : string :=
  string_of_list_ascii (map base62_digit (rev (base62_digits (S n) n))).

(** Reading a numeral back. *)
Fixpoint position (c : ascii) (l : list ascii) : nat :=
  match l with
  | [] => 0
  | x :: l' => if Ascii.eqb x c then 0 else S (position c l')
  end.

Definition base62_value (c : ascii) : nat := position c base62_alphabet.

Definition base62_decode (s : string) : nat :=
  foldr (λ d acc, d + 62 * acc) 0
        (rev (map base62_value (list_ascii_of_string s))).

Fixpoint retry_from (store : gmap string string) (fuel n : nat) : string :=
  let candidate := base62 n in
  match store !! candidate, fuel with
  | None, _ => candidate
  | Some _, 0 => candidate
  | Some _, S fuel' => retry_from store fuel' (S n)
  end.

Definition first_free_code (long_url : string) (store : gmap string string)
  : string :=
  retry_from store (size store) 0.

(** ** A stand-in for Flask-Bcrypt

    The views are run on concrete inputs with this pair of functions.  It
    has the shape of bcrypt's output (60 characters: a 7-character prefix,
    then salt and digest) and nothing of its strength. *)

Definition demo_char (n : nat) : ascii := base62_digit (n mod 62).

Definition demo_digest (pw : string) : nat :=
  foldr (λ c acc, (nat_of_ascii c + 3 * acc) mod 62) 7
        (list_ascii_of_string pw).

Definition demo_hash (s : nat) (pw : string) : string :=
  "$2b$12$" +:+ String (demo_char s)
    (string_of_list_ascii (replicate 52 (demo_char (s + demo_digest pw)))).

Definition demo_check (pw_hash pw : string) : bool :=
  existsb (λ s, String.eqb pw_hash (demo_hash s pw)) (seq 0 62).

(** A form submission: a POST with a valid CSRF token. *)
Definition submit (fields : list (string * string)) : request :=
  Request POST (list_to_map fields) true.

Definition register_form (u pw e : string) : request :=
  submit [("username", u); ("password", pw); ("email", e)].

Definition login_form (identifier pw : string) : request :=
  submit [("username", identifier); ("password", pw)].

(** ** Properties of the stored users *)

(** No two rows share a username, and no two rows share an email. *)
Definition users_unique (tbl : list User) : Prop :=
  NoDup (username <$> tbl) ∧ NoDup (email <$> tbl).

(** The pages of the refused registrations and logins. *)
Definition page_username_exists : response :=
  render_template "userauth/register/register_username_exists.html".

Definition page_email_exists : response :=
  render_template "userauth/register/register_email_exists.html".

Definition page_login : response :=
  render_template "userauth/login/login.html".

Definition page_login_wrong_info : response :=
  render_template "userauth/login/login_wrong_info.html".

Definition page_url_not_found : response :=
  render_template "error/urlnotfound.html".

(** What [login] answers once it holds a user row: the stored hash is
    checked against the submitted password. *)
Definition login_verdict (check_password_hash : string → string → bool)
    (user : User) (pw : string) (w : world) : response * world :=
  if check_password_hash (password user) pw
  then (redirect (url_for "dashboard"), set_current_user (Some (id user)) w)
  else (page_login_wrong_info, w).

(** A row as the forms and bcrypt let it in: the lengths that
    [RegisterForm] admits, and a hash of bcrypt's length. *)
Definition row_well_formed (r : User) : Prop :=
  4 ≤ String.length (username r) ≤ 36
  ∧ 8 ≤ String.length (email r) ≤ 16
  ∧ String.length (password r) = 60.

(** The id that the session holds, if any, is the id of a stored row. *)
Definition session_loads (w : world) : Prop :=
  ∀ i, current_user w = Some i → is_Some (load_user i (users w)).

(** ** Allocation under the store's uniqueness constraint *)

(** Modelled from the spec: the insert of a mapping into a store that
    keeps [short_code] unique.  "The uniqueness constraint must be enforced
    at the storage layer": an insert under a key that is there is refused
    (the outcome the specification calls Conflict), and the store stays as
    it was. *)
Definition store_insert_unique (short_code long_url : string)
    (store : gmap string string) : option (gmap string string) :=
  match store !! short_code with
  | Some _ => None
  | None => Some (<[short_code := long_url]> store)
  end.

(** What an allocation gives: the new code with the store that holds it,
    or a storage fault. *)
Inductive allocation :=
  | Allocated (short_code : string) (store : gmap string string)
  | StorageFault.

Section CheckedAllocation.

(** The candidate codes, by long URL, store and number of the attempt; any
    function at all, there is no constraint on it. *)
Variable candidate : string → gmap string string → nat → string.

(** Modelled from the spec: [allocate] on top of that insert.  "The
    allocation operation must treat a constraint violation as a signal to
    regenerate and retry rather than corrupt data", and a collision is "not
    silently retried more than a small bounded number of times": after
    [retries] further attempts the fault is surfaced. *)
Fixpoint allocate_retry (retries attempt : nat) (long_url : string)
    (store : gmap string string) : allocation :=
  let short_code := candidate long_url store attempt in
  match store_insert_unique short_code long_url store with
  | Some store' => Allocated short_code store'
  | None =>
      match retries with
      | 0 => StorageFault
      | S retries' => allocate_retry retries' (S attempt) long_url store
      end
  end.

Definition allocate_checked (retries : nat) (long_url : string)
    (store : gmap string string) : allocation :=
  allocate_retry retries 0 long_url store.

End CheckedAllocation.

(** Candidates by counting: the attempt's number in base 62. *)
Definition base62_candidate (long_url : string) (store : gmap string string)
    (attempt : nat) : string :=
  base62 attempt.

(** A generator that always proposes the same code. *)
Definition constant_candidate (long_url : string)
    (store : gmap string string) (attempt : nat) : string :=
  "k3F9".

(** ** The two halves of a registration *)

(** Lines 148 to 151 of [register]: the two tests, which only read the
    table; [None] when both pass. *)
Definition register_tests (u e : string) (tbl : list User) : option response :=
  if negb (check_username u tbl) then
    Some (render_template "userauth/register/register_username_exists.html")
  else if negb (check_email e tbl) then
    Some (render_template "userauth/register/register_email_exists.html")
  else None.

(** Lines 152 to 156 of [register]: the hash, the insert and the commit,
    on the table as it is when the commit is reached. *)
Definition register_write {salt : Type}
    (generate_password_hash : salt → string → string)
    (s : salt) (u pw e : string) (w : world) : response * world :=
  let hashed_password := generate_password_hash s pw in
  match db_add_commit u hashed_password e (users w) with
  | Some tbl => (redirect (url_for "login"), set_users tbl w)
  | None => (server_error "IntegrityError", w)
  end.

(** Two validated registrations served at the same time, each by its own
    worker: both run their tests on the table they find, before either has
    committed; then the first commits, then the second.  A worker whose
    tests refuse the form answers with the page and writes nothing. *)
Definition register_overlapped {salt : Type}
    (generate_password_hash : salt → string → string)
    (s1 : salt) (u1 pw1 e1 : string) (s2 : salt) (u2 pw2 e2 : string)
    (w : world) : response * response * world :=
  let tests1 := register_tests u1 e1 (users w) in
  let tests2 := register_tests u2 e2 (users w) in
  let '(r1, w1) :=
    match tests1 with
    | Some page => (page, w)
    | None => register_write generate_password_hash s1 u1 pw1 e1 w
    end in
  let '(r2, w2) :=
    match tests2 with
    | Some page => (page, w1)
    | None => register_write generate_password_hash s2 u2 pw2 e2 w1
    end in
  (r1, r2, w2).

(** ** Concrete scenarios *)

(** The state after [alice] has registered on the empty store. *)
Definition alice_world : world :=
  (register demo_hash 1
     (register_form "alice" "pw12345678" "alice@x.com") empty_world).2.

(** A short session: a registration, a second one with the same username,
    one with the same email, a login, a third registration, a shortening
    request and a visit of a short link. *)
Definition demo_trace : list (route * nat * request) :=
  [ (Register, 1, register_form "alice" "pw12345678" "alice@x.com");
    (Register, 2, register_form "alice" "other1234" "bob@y.com");
    (Register, 3, register_form "robert" "pw12345678" "alice@x.com");
    (Login, 0, login_form "alice@x.com" "pw12345678");
    (Register, 4, register_form "robert" "pw12345678" "bob@y.com");
    (Url, 0, submit [("url", "https://example.com/a")]);
    (Redirection "k3F9", 0, Request GET ∅ false) ].

(** * Theorems *)

(** ** Queries on the [User] table *)

Lemma first_by_username_None u tbl :
  first_by_username u tbl = None ↔ u ∉ username <$> tbl.
Proof.
  unfold first_by_username. induction tbl as [|r tbl IH]; simpl.
  - split; [intros _; apply not_elem_of_nil | done].
  - rewrite not_elem_of_cons. destruct (String.eqb_spec (username r) u) as [E|E].
    + split; [done | intros [? _]; congruence].
    + rewrite IH. split; [intros ?; split; [congruence | done] | tauto].
Qed.

Lemma first_by_email_None e tbl :
  first_by_email e tbl = None ↔ e ∉ email <$> tbl.
Proof.
  unfold first_by_email. induction tbl as [|r tbl IH]; simpl.
  - split; [intros _; apply not_elem_of_nil | done].
  - rewrite not_elem_of_cons. destruct (String.eqb_spec (email r) e) as [E|E].
    + split; [done | intros [? _]; congruence].
    + rewrite IH. split; [intros ?; split; [congruence | done] | tauto].
Qed.

Lemma first_by_username_Some u tbl r :
  first_by_username u tbl = Some r → username r = u ∧ r ∈ tbl.
Proof.
  unfold first_by_username. intros H. apply find_some in H as [Hin Heq].
  apply String.eqb_eq in Heq. by rewrite list_elem_of_In.
Qed.

Lemma first_by_email_Some e tbl r :
  first_by_email e tbl = Some r → email r = e ∧ r ∈ tbl.
Proof.
  unfold first_by_email. intros H. apply find_some in H as [Hin Heq].
  apply String.eqb_eq in Heq. by rewrite list_elem_of_In.
Qed.

Lemma check_username_true u tbl :
  check_username u tbl = true ↔ u ∉ username <$> tbl.
Proof.
  unfold check_username. rewrite <- first_by_username_None.
  destruct (first_by_username u tbl); simpl; split; congruence.
Qed.

Lemma check_email_true e tbl :
  check_email e tbl = true ↔ e ∉ email <$> tbl.
Proof.
  unfold check_email. rewrite <- first_by_email_None.
  destruct (first_by_email e tbl); simpl; split; congruence.
Qed.

Lemma username_taken_existsb u tbl :
  existsb (λ r, String.eqb (username r) u) tbl = negb (check_username u tbl).
Proof.
  unfold check_username, first_by_username.
  induction tbl as [|r tbl IH]; simpl; [done|].
  destruct (String.eqb (username r) u); simpl; [done | apply IH].
Qed.

(** The store's own uniqueness constraint never fires after the view's
    check: the commit of [register] cannot raise. *)
Lemma db_add_commit_checked u pw e tbl :
  check_username u tbl = true →
  db_add_commit u pw e tbl = Some (tbl ++ [mkUser (next_id tbl) u pw e]).
Proof.
  intros H. unfold db_add_commit. rewrite username_taken_existsb, H. done.
Qed.

(** ** Form validation *)

Lemma Length_data lo hi k req :
  Length lo hi (form req !! k) = true →
  lo ≤ String.length (data k req) ≤ hi.
Proof.
  unfold Length, data. destruct (form req !! k); simpl;
    rewrite andb_true_iff, !Nat.leb_le; lia.
Qed.

Lemma RegisterForm_validate_password req tbl :
  RegisterForm_validate req tbl = true →
  8 ≤ String.length (data "password" req) ≤ 16.
Proof.
  unfold RegisterForm_validate. rewrite !andb_true_iff.
  intros [[_ [_ H]] _]. by apply Length_data.
Qed.

(** The inline validator of [RegisterForm] rejects nothing. *)
Lemma validate_username_never_fails field_data tbl :
  inline_passes (validate_username field_data tbl) = true.
Proof.
  unfold validate_username. destruct field_data as [u|]; [|done].
  by destruct (first_by_username u tbl).
Qed.

(** ** Registration *)

Section Registration.

Context {salt : Type}.
Variable generate_password_hash : salt → string → string.

Local Abbreviation register_validated := (register_validated generate_password_hash).
Local Abbreviation register := (register generate_password_hash).

(** What [register] does under a validated form, by the two membership
    tests it makes: one on the usernames, then one on the emails, and the
    write only after both. *)
Lemma register_validated_cases s u pw e w :
  register_validated s u pw e w =
    if bool_decide (u ∈ username <$> users w) then (page_username_exists, w)
    else if bool_decide (e ∈ email <$> users w) then (page_email_exists, w)
    else (redirect (url_for "login"),
          set_users (users w ++
            [mkUser (next_id (users w)) u (generate_password_hash s pw) e]) w).
Proof.
  unfold register_validated.
  destruct (check_username u (users w)) eqn:Hu.
  - apply check_username_true in Hu as Hu'.
    rewrite (bool_decide_eq_false_2 _ Hu'). simpl.
    destruct (check_email e (users w)) eqn:He.
    + apply check_email_true in He.
      rewrite (bool_decide_eq_false_2 _ He). simpl.
      by rewrite db_add_commit_checked.
    + assert (e ∈ email <$> users w) as He'.
      { destruct (decide (e ∈ email <$> users w)); [done|].
        apply check_email_true in n. congruence. }
      by rewrite (bool_decide_eq_true_2 _ He').
  - assert (u ∈ username <$> users w) as Hu'.
    { destruct (decide (u ∈ username <$> users w)); [done|].
      apply check_username_true in n. congruence. }
    by rewrite (bool_decide_eq_true_2 _ Hu').
Qed.

Lemma register_validated_success s u pw e w :
  (register_validated s u pw e w).1 = redirect (url_for "login") →
  (u ∉ username <$> users w) ∧ (e ∉ email <$> users w) ∧
  (register_validated s u pw e w).2 =
    set_users (users w ++
      [mkUser (next_id (users w)) u (generate_password_hash s pw) e]) w.
Proof.
  rewrite register_validated_cases.
  repeat case_bool_decide; simpl; try done.
Qed.

Lemma register_success_validated s req w :
  (register s req w).1 = redirect (url_for "login") →
  is_submitted req && RegisterForm_validate req (users w) = true.
Proof.
  unfold register.
  by destruct (is_submitted req && RegisterForm_validate req (users w)).
Qed.

Lemma register_validated_rejected s u pw e w :
  (register_validated s u pw e w).1 = page_username_exists ∨
  (register_validated s u pw e w).1 = page_email_exists →
  (register_validated s u pw e w).2 = w.
Proof.
  rewrite register_validated_cases.
  repeat case_bool_decide; simpl; try done.
  intros [?|?]; discriminate.
Qed.

Lemma register_validated_again s1 s2 u p e p2 e2 w :
  (register_validated s1 u p e w).1 = redirect (url_for "login") →
  register_validated s2 u p2 e2 (register_validated s1 u p e w).2
  = (page_username_exists, (register_validated s1 u p e w).2).
Proof.
  intros Hok. rewrite (register_validated_cases s2).
  apply register_validated_success in Hok as (_ & _ & Hw1).
  assert (u ∈ username <$> users (register_validated s1 u p e w).2) as Hin.
  { rewrite Hw1. simpl. rewrite fmap_app.
    apply elem_of_app. right. simpl. apply list_elem_of_here. }
  by rewrite (bool_decide_eq_true_2 _ Hin).
Qed.

(** C4. A successful [register(u, p, e)] followed at once by
    [register(u, p2, e2)] with the same username gives the
    username-taken page on the second call, whatever [p2] and [e2] are,
    and writes nothing; so does the [register] view on every second form
    with that username that passes validation.  The outcome of a
    registration is decided by two tests, one of the username against the
    stored usernames and one of the email against the stored emails, and a
    row is written only when both have passed. *)
Theorem register_same_username_taken s1 u p e w :
  (register_validated s1 u p e w).1 = redirect (url_for "login") →
  let w1 := (register_validated s1 u p e w).2 in
  (∀ s2 p2 e2,
     register_validated s2 u p2 e2 w1 = (page_username_exists, w1))
  ∧ (∀ s2 req2,
       is_submitted req2 && RegisterForm_validate req2 (users w1) = true →
       data "username" req2 = u →
       register s2 req2 w1 = (page_username_exists, w1))
  ∧ (∀ s2 u2 p2 e2 w2,
       register_validated s2 u2 p2 e2 w2 =
         if bool_decide (u2 ∈ username <$> users w2)
         then (page_username_exists, w2)
         else if bool_decide (e2 ∈ email <$> users w2)
         then (page_email_exists, w2)
         else (redirect (url_for "login"),
               set_users (users w2 ++
                 [mkUser (next_id (users w2)) u2
                         (generate_password_hash s2 p2) e2]) w2)).
Proof.
  intros Hok w1. split; [|split].
  - intros s2 p2 e2. by apply register_validated_again.
  - intros s2 req2 Hval Hu. unfold register. rewrite Hval, Hu.
    by apply register_validated_again.
  - intros. apply register_validated_cases.
Qed.

(** Two registrations through the view, one after the other. *)
Lemma register_view_same_username_taken s1 s2 req1 req2 w :
  (register s1 req1 w).1 = redirect (url_for "login") →
  is_submitted req2
    && RegisterForm_validate req2 (users (register s1 req1 w).2) = true →
  data "username" req2 = data "username" req1 →
  register s2 req2 (register s1 req1 w).2
  = (page_username_exists, (register s1 req1 w).2).
Proof.
  intros Hok. pose proof (register_success_validated _ _ _ Hok) as Hv1.
  unfold register in Hok |- *. rewrite Hv1 in Hok |- *.
  intros Hval Hu. rewrite Hval, Hu.
  by apply register_validated_again.
Qed.

(** C9. When [register] answers with the username-taken page or with the
    email-taken page, the state it leaves is the state it found: no user
    row is written. *)
Theorem register_rejected_unchanged s req w :
  (register s req w).1 = page_username_exists ∨
  (register s req w).1 = page_email_exists →
  (register s req w).2 = w.
Proof.
  unfold register.
  destruct (is_submitted req && RegisterForm_validate req (users w)); [|done].
  apply register_validated_rejected.
Qed.

(** bcrypt's output is 60 characters long, whatever the salt and the
    password. *)
Hypothesis bcrypt_hash_length :
  ∀ s pw, String.length (generate_password_hash s pw) = 60.

(** C8. On every successful [register] the table gains exactly one row;
    its [password] column holds the bcrypt hash of the submitted
    password, and that stored value is not the submitted password. *)
Theorem register_stores_hash s req w :
  (register s req w).1 = redirect (url_for "login") →
  ∃ new_user,
    users (register s req w).2 = users w ++ [new_user]
    ∧ username new_user = data "username" req
    ∧ email new_user = data "email" req
    ∧ password new_user = generate_password_hash s (data "password" req)
    ∧ password new_user ≠ data "password" req.
Proof.
  intros Hok. pose proof (register_success_validated _ _ _ Hok) as Hval.
  revert Hok. unfold register. rewrite Hval. intros Hok.
  apply register_validated_success in Hok as (_ & _ & ->).
  eexists. split; [reflexivity|]. simpl. repeat split.
  apply andb_true_iff in Hval as [_ Hval].
  apply RegisterForm_validate_password in Hval.
  intros Heq. pose proof (bcrypt_hash_length s (data "password" req)) as Hlen.
  rewrite Heq in Hlen. lia.
Qed.

End Registration.

(** ** Login *)

Section Login.

Variable check_password_hash : string → string → bool.

Local Abbreviation login := (login check_password_hash).
Local Abbreviation login_validated := (login_validated check_password_hash).
Local Abbreviation login_verdict := (login_verdict check_password_hash).

Lemma login_validated_by_username identifier pw w user :
  first_by_username identifier (users w) = Some user →
  login_validated identifier pw w = login_verdict user pw w.
Proof. unfold login_validated. by intros ->. Qed.

Lemma login_validated_by_email identifier pw w user :
  identifier ∉ username <$> users w →
  first_by_email identifier (users w) = Some user →
  login_validated identifier pw w = login_verdict user pw w.
Proof.
  unfold login_validated.
  intros Hu%first_by_username_None ->. by rewrite Hu.
Qed.

Lemma login_validated_unknown identifier pw w :
  identifier ∉ username <$> users w →
  identifier ∉ email <$> users w →
  login_validated identifier pw w = (page_login, w).
Proof.
  unfold login_validated.
  intros Hu%first_by_username_None He%first_by_email_None.
  by rewrite Hu, He.
Qed.

Lemma login_validated_wrong_password identifier pw w user :
  py_or (first_by_username identifier (users w))
        (first_by_email identifier (users w)) = Some user →
  check_password_hash (password user) pw = false →
  login_validated identifier pw w = (page_login_wrong_info, w).
Proof. unfold login_validated. by intros -> ->. Qed.

Lemma first_by_username_split identifier before user after :
  identifier ∉ username <$> before →
  username user = identifier →
  first_by_username identifier (before ++ user :: after) = Some user.
Proof.
  intros Hnot Hu. unfold first_by_username.
  induction before as [|r before IH]; simpl.
  - by rewrite Hu, String.eqb_refl.
  - rewrite fmap_cons in Hnot. apply not_elem_of_cons in Hnot as [Hne Hnot].
    destruct (String.eqb_spec (username r) identifier);
      [congruence | by apply IH].
Qed.

Lemma first_by_email_split identifier before user after :
  identifier ∉ email <$> before →
  email user = identifier →
  first_by_email identifier (before ++ user :: after) = Some user.
Proof.
  intros Hnot He. unfold first_by_email.
  induction before as [|r before IH]; simpl.
  - by rewrite He, String.eqb_refl.
  - rewrite fmap_cons in Hnot. apply not_elem_of_cons in Hnot as [Hne Hnot].
    destruct (String.eqb_spec (email r) identifier);
      [congruence | by apply IH].
Qed.

(** C7. Under a validated login form the identifier is first looked up
    among the usernames: the first row of the table whose username is the
    identifier is the row that [login] takes, whatever the emails of the
    rows are.  Only when no row has the identifier as username does the
    lookup among the emails decide, and then [login] takes the first row
    whose email is the identifier.  The row taken by either lookup is
    accepted: its hash is checked against the password, and when it
    verifies the user is logged in and sent to the dashboard.  With no row
    under either lookup the login form is shown again. *)
Theorem login_lookup_order req w :
  is_submitted req && LoginForm_validate req = true →
  let identifier := data "username" req in
  let pw := data "password" req in
  (∀ before user after,
     users w = before ++ user :: after →
     (identifier ∉ username <$> before) →
     username user = identifier →
     login req w = login_verdict user pw w)
  ∧ (∀ before user after,
       users w = before ++ user :: after →
       (identifier ∉ username <$> users w) →
       (identifier ∉ email <$> before) →
       email user = identifier →
       login req w = login_verdict user pw w)
  ∧ ((identifier ∉ username <$> users w) →
     (identifier ∉ email <$> users w) →
     login req w = (page_login, w)).
Proof.
  intros Hval identifier pw. unfold login. rewrite Hval.
  split; [|split].
  - intros before user after Htbl Hnot Hu.
    apply login_validated_by_username. rewrite Htbl.
    by apply first_by_username_split.
  - intros before user after Htbl Hnone Hnot He.
    apply login_validated_by_email; [done|]. rewrite Htbl.
    by apply first_by_email_split.
  - apply login_validated_unknown.
Qed.

(** C5. [login] does tell the two failures apart.  On the same state, an
    identifier that no row carries, whatever the password, is answered
    with the plain login form, for want of an [else] to [if user := ...];
    an identifier whose row fails the hash check is answered with the
    wrong-information page.  The two responses differ. *)
Theorem login_unknown_vs_wrong_password identifier pw identifier' pw' w user :
  identifier ∉ username <$> users w →
  identifier ∉ email <$> users w →
  py_or (first_by_username identifier' (users w))
        (first_by_email identifier' (users w)) = Some user →
  check_password_hash (password user) pw' = false →
  (login_validated identifier pw w).1 = page_login
  ∧ (login_validated identifier' pw' w).1 = page_login_wrong_info
  ∧ (login_validated identifier pw w).1 ≠ (login_validated identifier' pw' w).1.
Proof.
  intros Hu He Hfound Hbad.
  rewrite login_validated_unknown by done.
  rewrite (login_validated_wrong_password _ _ _ _ Hfound Hbad). done.
Qed.

End Login.

(** ** The whole application *)

Section Application.

Context {salt : Type}.
Variable generate_password_hash : salt → string → string.
Variable check_password_hash : string → string → bool.

Local Abbreviation register := (register generate_password_hash).
Local Abbreviation login := (login check_password_hash).
Local Abbreviation dispatch :=
  (dispatch generate_password_hash check_password_hash).
Local Abbreviation run := (run generate_password_hash check_password_hash).

Lemma login_required_users view w :
  (∀ w', users (view w').2 = users w') →
  users (login_required view w).2 = users w.
Proof.
  intros Hview. unfold login_required.
  destruct (current_user w ≫= _); [apply Hview | done].
Qed.

Lemma login_users req w : users (login req w).2 = users w.
Proof.
  unfold login, login_validated.
  destruct (is_submitted req && LoginForm_validate req); [|done].
  destruct (py_or _ _) as [user|]; [|done].
  by destruct (check_password_hash _ _).
Qed.

(** Every view but [register] leaves the [User] table as it is. *)
Lemma dispatch_users r s req w :
  r ≠ Register → users (dispatch r s req w).2 = users w.
Proof.
  intros Hr. unfold dispatch.
  destruct (decide (method req = OPTIONS)); [done|].
  destruct (admits r (method req)); [|done].
  destruct r; try done.
  - unfold url. destruct (decide _); [|done]. by destruct (form req !! "url").
  - apply login_users.
  - by apply login_required_users.
  - by apply login_required_users.
  - unfold redirection. by destruct (get_long_url _ _).
Qed.

Lemma register_users_unique s req w :
  users_unique (users w) → users_unique (users (register s req w).2).
Proof.
  intros [Hu He]. unfold register.
  destruct (is_submitted req && RegisterForm_validate req (users w));
    [|by split].
  rewrite register_validated_cases.
  repeat case_bool_decide; simpl; [by split | by split |].
  split; rewrite fmap_app; apply NoDup_app; (split; [done|]);
    (split; [|apply NoDup_singleton]);
    intros x Hx Hx'; apply list_elem_of_singleton in Hx'; by subst x.
Qed.

Lemma dispatch_users_unique r s req w :
  users_unique (users w) → users_unique (users (dispatch r s req w).2).
Proof.
  intros Hw. destruct (decide (r = Register)) as [->|Hr].
  - unfold dispatch.
    destruct (decide (method req = OPTIONS)); [done|].
    destruct (admits Register (method req)); [|done].
    by apply register_users_unique.
  - by rewrite dispatch_users.
Qed.

(** Served one after the other, the requests keep the usernames of the
    stored rows pairwise distinct and their emails too: along every such
    run, from a state that has both. *)
Lemma run_preserves_users_unique trace w :
  users_unique (users w) → users_unique (users (run trace w)).
Proof.
  revert w. induction trace as [|[[r s] req] trace IH]; intros w Hw; [done|].
  simpl. apply IH. by apply dispatch_users_unique.
Qed.

End Application.

(** ** The [/url] view *)

(** C10. A POST to [/url] that carries a ['url'] form value is answered
    with that value, unchanged, as the body of the response, and leaves
    the whole state, the short-code store in it, as it was: no mapping is
    created. *)
Theorem url_post_echo req w v :
  method req = POST →
  form req !! "url" = Some v →
  url req w = (body v, w) ∧ urls (url req w).2 = urls w.
Proof.
  intros Hm Hv. unfold url. rewrite Hm, Hv. by rewrite decide_True.
Qed.

Lemma url_state_unchanged req w : (url req w).2 = w.
Proof.
  unfold url. destruct (decide _); [|done]. by destruct (form req !! "url").
Qed.

(** The [/url] view hands out no code: whatever was submitted, every short
    code resolves after the request as it did before. *)
Lemma url_allocates_nothing req w short_url :
  redirection short_url (url req w).2 = redirection short_url w.
Proof. by rewrite url_state_unchanged. Qed.

(** ** Resolution and allocation *)

Lemma redirection_state_unchanged short_url w :
  (redirection short_url w).2 = w.
Proof. unfold redirection. by destruct (get_long_url _ _). Qed.

Lemma redirection_miss short_url w :
  urls w !! short_url = None →
  redirection short_url w = (page_url_not_found, w).
Proof. unfold redirection, get_long_url. by intros ->. Qed.

Lemma redirection_hit short_url long_url w :
  urls w !! short_url = Some long_url →
  redirection short_url w = (redirect long_url, w).
Proof. unfold redirection, get_long_url. by intros ->. Qed.

Section RegistryFacts.

Variable generate_code : string → gmap string string → string.

Local Abbreviation allocate := (allocate generate_code).
Local Abbreviation allocate_all := (allocate_all generate_code).

(** C1. Allocating a short code for a long URL and then resolving that
    code gives the long URL back: [get_long_url] returns it, and the
    [redirection] view redirects to it. *)
Theorem allocate_resolve_roundtrip long_url w :
  let short_code := (allocate long_url (urls w)).1 in
  let w' := set_urls (allocate long_url (urls w)).2 w in
  get_long_url short_code (urls w') = Some long_url
  ∧ redirection short_code w' = (redirect long_url, w').
Proof.
  simpl. assert (get_long_url (generate_code long_url (urls w))
    (<[generate_code long_url (urls w) := long_url]> (urls w)) = Some long_url)
    as Hget by apply lookup_insert_eq.
  split; [done|]. by apply redirection_hit.
Qed.

(** The keys of the store after a series of allocations: those it had,
    and the codes handed out. *)
Lemma allocate_all_lookup long_urls (store : gmap string string) c :
  store !! c = None →
  c ∉ (allocate_all long_urls store).1 →
  (allocate_all long_urls store).2 !! c = None.
Proof.
  revert store. induction long_urls as [|long_url rest IH]; intros store Hc Hnot;
    [done|].
  simpl in *. destruct (allocate_all rest _) as [cs store2] eqn:Hrest.
  simpl in *. apply not_elem_of_cons in Hnot as [Hne Hnot].
  specialize (IH (<[generate_code long_url store := long_url]> store)).
  rewrite Hrest in IH. apply IH; [|done].
  by rewrite lookup_insert_ne.
Qed.

(** C2. A short code that the store did not hold and that no allocation
    since has handed out resolves to the not-found value, [False] in the
    source, returned and not raised; the [redirection] view answers it with
    the not-found page. *)
Theorem resolve_never_allocated long_urls (store : gmap string string) c w :
  store !! c = None →
  c ∉ (allocate_all long_urls store).1 →
  let w' := set_urls (allocate_all long_urls store).2 w in
  get_long_url c (urls w') = None
  ∧ redirection c w' = (page_url_not_found, w').
Proof.
  intros Hc Hnot w'.
  assert (urls w' !! c = None) as Hmiss by by apply allocate_all_lookup.
  split; [done|]. by apply redirection_miss.
Qed.

Hypothesis generate_code_fresh :
  ∀ long_url (store : gmap string string),
    store !! generate_code long_url store = None.

(** The codes of a series of allocations are pairwise distinct, and none
    of them was in the store before. *)
Lemma allocate_all_NoDup long_urls (store : gmap string string) :
  NoDup (allocate_all long_urls store).1
  ∧ ∀ c, c ∈ (allocate_all long_urls store).1 → store !! c = None.
Proof.
  revert store. induction long_urls as [|long_url rest IH]; intros store.
  { split; [constructor | by intros c ?%elem_of_nil]. }
  simpl. specialize (IH (<[generate_code long_url store := long_url]> store)).
  destruct (allocate_all rest _) as [cs store2]. simpl in *.
  destruct IH as [Hnd Hfresh]. split.
  - constructor; [|done]. intros Hin%Hfresh. by rewrite lookup_insert_eq in Hin.
  - intros c [->|Hin]%elem_of_cons; [apply generate_code_fresh|].
    apply Hfresh in Hin.
    destruct (decide (generate_code long_url store = c)) as [Heq|Hne].
    + subst c. by rewrite lookup_insert_eq in Hin.
    + by rewrite lookup_insert_ne in Hin.
Qed.

End RegistryFacts.

(** ** The base62 scheme is collision-free *)

Lemma base62_value_digit d : d < 62 → base62_value (base62_digit d) = d.
Proof.
  intros Hd. do 62 (destruct d as [|d]; [reflexivity|]). lia.
Qed.

Lemma base62_digits_S fuel n :
  base62_digits (S fuel) n =
    n mod 62 :: (if n / 62 =? 0 then [] else base62_digits fuel (n / 62)).
Proof. reflexivity. Qed.

Lemma base62_digits_bound fuel n : Forall (λ d, d < 62) (base62_digits fuel n).
Proof.
  revert n. induction fuel as [|fuel IH]; intros n; [constructor|].
  rewrite base62_digits_S. constructor; [apply Nat.mod_upper_bound; lia|].
  destruct (n / 62 =? 0); [constructor | apply IH].
Qed.

Lemma base62_digits_value fuel n :
  n < fuel → foldr (λ d acc, d + 62 * acc) 0 (base62_digits fuel n) = n.
Proof.
  revert n. induction fuel as [|fuel IH]; intros n Hn; [lia|].
  rewrite base62_digits_S. pose proof (Nat.div_mod_eq n 62) as Hdm.
  destruct (n / 62 =? 0) eqn:Hq.
  - apply Nat.eqb_eq in Hq. cbn [foldr]. lia.
  - apply Nat.eqb_neq in Hq. cbn [foldr]. rewrite IH; [lia|].
    assert (n / 62 < n) by (apply Nat.div_lt; lia). lia.
Qed.

Lemma base62_value_digits l :
  Forall (λ d, d < 62) l → map base62_value (map base62_digit l) = l.
Proof.
  induction 1 as [|d l Hd _ IH]; simpl; [done|].
  by rewrite base62_value_digit, IH.
Qed.

Lemma base62_decode_encode n : base62_decode (base62 n) = n.
Proof.
  unfold base62_decode, base62.
  rewrite list_ascii_of_string_of_list_ascii, base62_value_digits.
  - rewrite rev_involutive. apply base62_digits_value. lia.
  - apply Forall_rev, base62_digits_bound.
Qed.

Lemma base62_inj n m : base62 n = base62 m → n = m.
Proof.
  intros H. rewrite <- (base62_decode_encode n), H.
  apply base62_decode_encode.
Qed.

(** The search either ends on a free code or has walked over [fuel + 1]
    numerals that are all keys of the store. *)
Lemma retry_from_spec (store : gmap string string) fuel n :
  store !! retry_from store fuel n = None
  ∨ ∀ k, n ≤ k ≤ n + fuel → is_Some (store !! base62 k).
Proof.
  revert n. induction fuel as [|fuel IH]; intros n; simpl.
  - destruct (store !! base62 n) eqn:Hn; [|by left].
    right. intros k Hk. assert (k = n) as -> by lia. by rewrite Hn.
  - destruct (store !! base62 n) eqn:Hn; [|by left].
    destruct (IH (S n)) as [Hfree|Hall]; [by left|].
    right. intros k Hk. destruct (decide (k = n)) as [->|Hne].
    + by rewrite Hn.
    + apply Hall. lia.
Qed.

(** A store of [size store] keys cannot hold [size store + 1] numerals. *)
Lemma first_free_code_fresh long_url (store : gmap string string) :
  store !! first_free_code long_url store = None.
Proof.
  unfold first_free_code.
  destruct (retry_from_spec store (size store) 0) as [Hfree|Hall]; [done|].
  exfalso.
  set (numerals := base62 <$> seq 0 (S (size store))).
  assert (NoDup numerals) as Hnd.
  { apply NoDup_fmap_2; [|apply NoDup_seq]. intros n m. apply base62_inj. }
  assert (list_to_set numerals ⊆ dom store) as Hsub.
  { intros c Hc. apply elem_of_list_to_set in Hc.
    apply list_elem_of_fmap in Hc as (k & -> & Hk).
    apply elem_of_seq in Hk. apply elem_of_dom, Hall. lia. }
  apply subseteq_size in Hsub.
  rewrite size_list_to_set, size_dom in Hsub by done.
  unfold numerals in Hsub. rewrite length_fmap, length_seq in Hsub. lia.
Qed.

(** * The views on concrete inputs *)

Example base62_61 : base62 61 = "Z".
Proof. reflexivity. Qed.

Example base62_62 : base62 62 = "10".
Proof. reflexivity. Qed.

Example base62_decode_1C : base62_decode "1C" = 100.
Proof. reflexivity. Qed.

Example first_free_code_skips :
  first_free_code "x" (<["0" := "a"]> (<["1" := "b"]> ∅)) = "2".
Proof. vm_compute. reflexivity. Qed.

Lemma demo_hash_length s pw : String.length (demo_hash s pw) = 60.
Proof. reflexivity. Qed.

Example alice_world_users :
  users alice_world =
    [mkUser 1 "alice"
       "$2b$12$19999999999999999999999999999999999999999999999999999"
       "alice@x.com"].
Proof. vm_compute. reflexivity. Qed.

Example register_email_taken :
  register demo_hash 3 (register_form "robert" "pw12345678" "alice@x.com")
           alice_world
  = (page_email_exists, alice_world).
Proof. vm_compute. reflexivity. Qed.

(** A second form that fails validation is answered with the form again,
    before any test of the username. *)
Example register_short_password :
  register demo_hash 2 (register_form "alice" "x" "bob@y.com") alice_world
  = (render_template "userauth/register/register.html", alice_world).
Proof. vm_compute. reflexivity. Qed.

(** [validate_username] sees the taken username and lets the form pass. *)
Example validate_username_taken :
  validate_username (Some "alice") (users alice_world)
  = Returns (Some "That username is already exists. Please choose a different one.")
  ∧ RegisterForm_validate (register_form "alice" "other1234" "bob@y.com")
                          (users alice_world) = true.
Proof. split; vm_compute; reflexivity. Qed.

Example login_by_username :
  login demo_check (login_form "alice" "pw12345678") alice_world
  = (redirect "/dasboard", set_current_user (Some 1) alice_world).
Proof. vm_compute. reflexivity. Qed.

Example demo_trace_users :
  username <$> users (run demo_hash demo_check demo_trace empty_world)
  = ["alice"; "robert"].
Proof. vm_compute. reflexivity. Qed.

(** The source has no view that allocates: after the shortening request
    of [demo_trace] the store of short codes is still empty. *)
Example demo_trace_urls :
  urls (run demo_hash demo_check demo_trace empty_world) = ∅.
Proof. vm_compute. reflexivity. Qed.

(** * Instances of the theorems *)

(** Settles a closed decidable proposition by running its decision
    procedure. *)
Ltac by_computation := apply (bool_decide_unpack _); vm_compute; exact I.

Lemma resolve_never_allocated_witness :
  (∅ : gmap string string) !! "zzzz" = None
  ∧ ("zzzz" ∉ (allocate_all first_free_code ["https://example.com/a"] ∅).1)
  ∧ redirection "zzzz"
      (set_urls (allocate_all first_free_code ["https://example.com/a"] ∅).2
                empty_world)
    = (page_url_not_found,
       set_urls (allocate_all first_free_code ["https://example.com/a"] ∅).2
                empty_world).
Proof.
  assert ((∅ : gmap string string) !! "zzzz" = None) as H1 by reflexivity.
  assert ("zzzz" ∉ (allocate_all first_free_code ["https://example.com/a"] ∅).1)
    as H2.
  { by_computation. }
  split; [exact H1|]. split; [exact H2|].
  exact (proj2 (resolve_never_allocated first_free_code
                  ["https://example.com/a"] ∅ "zzzz" empty_world H1 H2)).
Defined.

Lemma register_same_username_taken_witness :
  (register_validated demo_hash 1 "alice" "pw12345678" "alice@x.com"
     empty_world).1 = redirect (url_for "login")
  ∧ register_validated demo_hash 2 "alice" "other1234" "bob@y.com" alice_world
    = (page_username_exists, alice_world).
Proof.
  assert ((register_validated demo_hash 1 "alice" "pw12345678" "alice@x.com"
             empty_world).1 = redirect (url_for "login")) as H
    by (vm_compute; reflexivity).
  split; [exact H|].
  exact (proj1 (register_same_username_taken demo_hash 1 "alice" "pw12345678"
                  "alice@x.com" empty_world H) 2 "other1234" "bob@y.com").
Defined.

Lemma register_rejected_unchanged_witness :
  ((register demo_hash 2 (register_form "alice" "other1234" "bob@y.com")
      alice_world).1 = page_username_exists
   ∨ (register demo_hash 2 (register_form "alice" "other1234" "bob@y.com")
        alice_world).1 = page_email_exists)
  ∧ (register demo_hash 2 (register_form "alice" "other1234" "bob@y.com")
       alice_world).2 = alice_world.
Proof.
  assert ((register demo_hash 2 (register_form "alice" "other1234" "bob@y.com")
             alice_world).1 = page_username_exists
          ∨ (register demo_hash 2
               (register_form "alice" "other1234" "bob@y.com")
               alice_world).1 = page_email_exists) as H
    by (left; vm_compute; reflexivity).
  split; [exact H|].
  exact (register_rejected_unchanged demo_hash 2 _ alice_world H).
Defined.

Lemma register_stores_hash_witness :
  (register demo_hash 1 (register_form "alice" "pw12345678" "alice@x.com")
     empty_world).1 = redirect (url_for "login")
  ∧ ∃ new_user,
      users alice_world = users empty_world ++ [new_user]
      ∧ username new_user = "alice"
      ∧ email new_user = "alice@x.com"
      ∧ password new_user = demo_hash 1 "pw12345678"
      ∧ password new_user ≠ "pw12345678".
Proof.
  assert ((register demo_hash 1
             (register_form "alice" "pw12345678" "alice@x.com")
             empty_world).1 = redirect (url_for "login")) as H
    by (vm_compute; reflexivity).
  split; [exact H|].
  exact (register_stores_hash demo_hash demo_hash_length 1
           (register_form "alice" "pw12345678" "alice@x.com") empty_world H).
Defined.

Lemma run_preserves_users_unique_witness :
  users_unique (users empty_world)
  ∧ users_unique (users (run demo_hash demo_check demo_trace empty_world)).
Proof.
  assert (users_unique (users empty_world)) as H
    by (split; simpl; apply NoDup_nil_2).
  split; [exact H|].
  exact (run_preserves_users_unique demo_hash demo_check demo_trace
           empty_world H).
Defined.

Lemma login_lookup_order_witness :
  is_submitted (login_form "alice" "pw12345678")
    && LoginForm_validate (login_form "alice" "pw12345678") = true
  ∧ is_submitted (login_form "alice@x.com" "pw12345678")
      && LoginForm_validate (login_form "alice@x.com" "pw12345678") = true
  ∧ login demo_check (login_form "alice" "pw12345678") alice_world
    = (redirect (url_for "dashboard"), set_current_user (Some 1) alice_world)
  ∧ login demo_check (login_form "alice@x.com" "pw12345678") alice_world
    = (redirect (url_for "dashboard"), set_current_user (Some 1) alice_world).
Proof.
  assert (is_submitted (login_form "alice" "pw12345678")
    && LoginForm_validate (login_form "alice" "pw12345678") = true) as H1
    by (vm_compute; reflexivity).
  assert (is_submitted (login_form "alice@x.com" "pw12345678")
    && LoginForm_validate (login_form "alice@x.com" "pw12345678") = true)
    as H2 by (vm_compute; reflexivity).
  split; [exact H1|]. split; [exact H2|]. split.
  - destruct (login_lookup_order demo_check
                (login_form "alice" "pw12345678") alice_world H1)
      as (Hname & _ & _).
    rewrite (Hname [] (mkUser 1 "alice" (demo_hash 1 "pw12345678")
                         "alice@x.com") []).
    + vm_compute. reflexivity.
    + vm_compute. reflexivity.
    + apply not_elem_of_nil.
    + vm_compute. reflexivity.
  - destruct (login_lookup_order demo_check
                (login_form "alice@x.com" "pw12345678") alice_world H2)
      as (_ & Hemail & _).
    rewrite (Hemail [] (mkUser 1 "alice" (demo_hash 1 "pw12345678")
                          "alice@x.com") []).
    + vm_compute. reflexivity.
    + vm_compute. reflexivity.
    + by_computation.
    + apply not_elem_of_nil.
    + vm_compute. reflexivity.
Defined.

Lemma login_unknown_vs_wrong_password_witness :
  (login_validated demo_check "nobody" "wrong-pass" alice_world).1 = page_login
  ∧ (login_validated demo_check "alice" "wrong-pass" alice_world).1
    = page_login_wrong_info
  ∧ (login_validated demo_check "nobody" "wrong-pass" alice_world).1
    ≠ (login_validated demo_check "alice" "wrong-pass" alice_world).1.
Proof.
  apply (login_unknown_vs_wrong_password demo_check "nobody" "wrong-pass"
           "alice" "wrong-pass" alice_world
           (mkUser 1 "alice" (demo_hash 1 "pw12345678") "alice@x.com")).
  - by_computation.
  - by_computation.
  - vm_compute. reflexivity.
  - vm_compute. reflexivity.
Defined.

Lemma url_post_echo_witness :
  method (submit [("url", "https://example.com/a")]) = POST
  ∧ form (submit [("url", "https://example.com/a")]) !! "url"
    = Some "https://example.com/a"
  ∧ url (submit [("url", "https://example.com/a")]) alice_world
    = (body "https://example.com/a", alice_world).
Proof.
  assert (form (submit [("url", "https://example.com/a")]) !! "url"
          = Some "https://example.com/a") as H by (vm_compute; reflexivity).
  split; [reflexivity|]. split; [exact H|].
  exact (proj1 (url_post_echo (submit [("url", "https://example.com/a")])
                  alice_world "https://example.com/a" eq_refl H)).
Defined.

(** * Further properties of the views *)

(** ** What the forms let through *)

Lemma field_valid lo hi (raw : option string) :
  1 ≤ lo →
  InputRequired raw = true ∧ Length lo hi raw = true
  ↔ ∃ v, raw = Some v ∧ lo ≤ String.length v ≤ hi.
Proof.
  intros Hlo. unfold InputRequired, Length. destruct raw as [v|]; simpl.
  - rewrite !andb_true_iff, negb_true_iff, !Nat.leb_le. split.
    + intros (_ & ? & ?). eauto.
    + intros (v' & [= <-] & ? & ?). split; [|done].
      apply String.eqb_neq. intros ->. simpl in *. lia.
  - split; [by intros [? _] | by intros (v & ? & _)].
Qed.

(** X1. [RegisterForm] validates exactly the requests with a valid CSRF
    token whose username has 4 to 36 characters and whose password and
    email have 8 to 16 each.  The stored users play no part: the inline
    [validate_username] turns no form down, a taken username included. *)
Theorem RegisterForm_validate_iff req tbl :
  RegisterForm_validate req tbl = true
  ↔ csrf_valid req = true
    ∧ (∃ u, form req !! "username" = Some u ∧ 4 ≤ String.length u ≤ 36)
    ∧ (∃ pw, form req !! "password" = Some pw ∧ 8 ≤ String.length pw ≤ 16)
    ∧ (∃ e, form req !! "email" = Some e ∧ 8 ≤ String.length e ≤ 16).
Proof.
  unfold RegisterForm_validate.
  rewrite validate_username_never_fails, andb_true_r, !andb_true_iff.
  rewrite !field_valid by lia. tauto.
Qed.

Lemma RegisterForm_validate_fields req tbl :
  RegisterForm_validate req tbl = true →
  4 ≤ String.length (data "username" req) ≤ 36
  ∧ 8 ≤ String.length (data "password" req) ≤ 16
  ∧ 8 ≤ String.length (data "email" req) ≤ 16.
Proof.
  unfold RegisterForm_validate. rewrite !andb_true_iff.
  intros [[[_ [[_ Hu] _]] [_ Hp]] [_ He]].
  auto using Length_data.
Qed.

Lemma LoginForm_validate_iff req :
  LoginForm_validate req = true
  ↔ csrf_valid req = true
    ∧ (∃ u, form req !! "username" = Some u ∧ 4 ≤ String.length u ≤ 36)
    ∧ (∃ pw, form req !! "password" = Some pw ∧ 8 ≤ String.length pw ≤ 16).
Proof.
  unfold LoginForm_validate. rewrite !andb_true_iff.
  rewrite !field_valid by lia. tauto.
Qed.

(** ** More on registration *)

Section RegistrationMore.

Context {salt : Type}.
Variable generate_password_hash : salt → string → string.
Variable check_password_hash : string → string → bool.

Local Abbreviation register := (register generate_password_hash).
Local Abbreviation dispatch :=
  (dispatch generate_password_hash check_password_hash).
Local Abbreviation run := (run generate_password_hash check_password_hash).


(** What a request leaves of the table: the table, or the table with one
    row more, made of the three fields of a validated form. *)
Lemma dispatch_users_step r s req w :
  users (dispatch r s req w).2 = users w
  ∨ (r = Register
     ∧ is_submitted req && RegisterForm_validate req (users w) = true
     ∧ users (dispatch r s req w).2 =
         users w ++ [mkUser (next_id (users w)) (data "username" req)
                       (generate_password_hash s (data "password" req))
                       (data "email" req)]).
Proof.
  destruct (decide (r = Register)) as [->|Hr];
    [|left; by apply dispatch_users].
  unfold dispatch.
  destruct (decide (method req = OPTIONS)); [by left|].
  destruct (admits Register (method req)); [|by left].
  unfold register.
  destruct (is_submitted req && RegisterForm_validate req (users w)) eqn:Hv;
    [|by left].
  rewrite register_validated_cases.
  repeat case_bool_decide; [by left | by left | by right].
Qed.

(** X5. The [User] table only grows, and by at most one row a request:
    after any run the table that was there is a prefix of the table that
    is there, so no row is ever changed or removed. *)
Theorem run_users_append_only trace w :
  users w `prefix_of` users (run trace w)
  ∧ length (users (run trace w)) ≤ length (users w) + length trace.
Proof.
  revert w. induction trace as [|[[r s] req] trace IH]; intros w; simpl.
  { split; [done | lia]. }
  destruct (IH (dispatch r s req w).2) as [Hpre Hlen].
  destruct (dispatch_users_step r s req w) as [Heq|(_ & _ & Heq)];
    rewrite Heq in Hpre, Hlen.
  - split; [done | lia].
  - split.
    + etrans; [|exact Hpre]. by apply prefix_app_r.
    + rewrite length_app in Hlen. simpl in Hlen. lia.
Qed.

Hypothesis bcrypt_hash_length :
  ∀ s pw, String.length (generate_password_hash s pw) = 60.

(** X4. Every row that the application stores has a username of 4 to 36
    characters, an email of 8 to 16 and a password column of bcrypt's 60:
    rows with these lengths stay so along every run, and each row added
    has them, so each fits its column ([String(36)], [String(254)],
    [String(80)]). *)
Theorem run_rows_well_formed trace w :
  Forall row_well_formed (users w) →
  Forall row_well_formed (users (run trace w)).
Proof.
  revert w. induction trace as [|[[r s] req] trace IH]; intros w Hw; [done|].
  simpl. apply IH.
  destruct (dispatch_users_step r s req w) as [->|(_ & Hv & ->)]; [done|].
  apply Forall_app. split; [done|]. apply Forall_singleton.
  apply andb_true_iff in Hv as [_ Hv].
  apply RegisterForm_validate_fields in Hv as (Hu & _ & He).
  unfold row_well_formed. simpl. by rewrite bcrypt_hash_length.
Qed.

End RegistrationMore.

(** ** More on login and the session *)

Lemma load_user_stored user tbl :
  user ∈ tbl → is_Some (load_user (id user) tbl).
Proof.
  unfold load_user. induction tbl as [|r tbl IH]; intros Hin.
  { by apply elem_of_nil in Hin. }
  simpl. destruct (Nat.eqb_spec (id r) (id user)) as [E|E]; [done|].
  apply elem_of_cons in Hin as [->|Hin]; [done | by apply IH].
Qed.

Lemma load_user_app i tbl rows :
  is_Some (load_user i tbl) → is_Some (load_user i (tbl ++ rows)).
Proof.
  unfold load_user. induction tbl as [|r tbl IH]; simpl.
  { by intros [? ?]. }
  by destruct (id r =? i).
Qed.

Lemma first_by_username_last u tbl r :
  u ∉ username <$> tbl → username r = u →
  first_by_username u (tbl ++ [r]) = Some r.
Proof.
  intros Hnot Hr. unfold first_by_username.
  induction tbl as [|r' tbl IH]; simpl.
  - by rewrite Hr, String.eqb_refl.
  - rewrite fmap_cons in Hnot. apply not_elem_of_cons in Hnot as [Hne Hnot].
    destruct (String.eqb_spec (username r') u); [congruence | by apply IH].
Qed.

Lemma first_by_email_last e tbl r :
  e ∉ email <$> tbl → email r = e →
  first_by_email e (tbl ++ [r]) = Some r.
Proof.
  intros Hnot Hr. unfold first_by_email.
  induction tbl as [|r' tbl IH]; simpl.
  - by rewrite Hr, String.eqb_refl.
  - rewrite fmap_cons in Hnot. apply not_elem_of_cons in Hnot as [Hne Hnot].
    destruct (String.eqb_spec (email r') e); [congruence | by apply IH].
Qed.

Lemma py_or_Some_elem identifier tbl user :
  py_or (first_by_username identifier tbl) (first_by_email identifier tbl)
    = Some user →
  user ∈ tbl ∧ (username user = identifier ∨ email user = identifier).
Proof.
  unfold py_or. destruct (first_by_username identifier tbl) as [r|] eqn:Hu.
  - intros [= <-]. apply first_by_username_Some in Hu as [? ?]. auto.
  - intros He. apply first_by_email_Some in He as [? ?]. auto.
Qed.

Section LoginMore.

Context {salt : Type}.
Variable generate_password_hash : salt → string → string.
Variable check_password_hash : string → string → bool.

Local Abbreviation register := (register generate_password_hash).
Local Abbreviation login := (login check_password_hash).
Local Abbreviation dispatch :=
  (dispatch generate_password_hash check_password_hash).
Local Abbreviation run := (run generate_password_hash check_password_hash).

(** X6. [login] redirects to the dashboard only on a validated form for
    which a stored row has the identifier as its username or as its email
    and a hash that verifies the submitted password; the session then
    holds the id of that row, and nothing else of the state changes. *)
Theorem login_success_sound req w :
  (login req w).1 = redirect (url_for "dashboard") →
  is_submitted req && LoginForm_validate req = true
  ∧ ∃ user,
      user ∈ users w
      ∧ (username user = data "username" req
         ∨ email user = data "username" req)
      ∧ check_password_hash (password user) (data "password" req) = true
      ∧ (login req w).2 = set_current_user (Some (id user)) w.
Proof.
  unfold login, login_validated.
  destruct (is_submitted req && LoginForm_validate req); [|done].
  destruct (py_or _ _) as [user|] eqn:Hfound; [|done].
  destruct (check_password_hash _ _) eqn:Hcheck; [|done].
  intros _. split; [done|]. exists user.
  apply py_or_Some_elem in Hfound as [Hin Hid]. done.
Qed.

(** X7. A login that does not end in the redirect to the dashboard leaves
    the state as it was: the table, the short codes, and the session too,
    so whoever was logged in before still is. *)
Theorem login_failure_unchanged req w :
  (login req w).1 ≠ redirect (url_for "dashboard") →
  (login req w).2 = w.
Proof.
  unfold login, login_validated.
  destruct (is_submitted req && LoginForm_validate req); [|done].
  destruct (py_or _ _) as [user|]; [|done].
  by destruct (check_password_hash _ _).
Qed.

(** X10. After a login that succeeded the dashboard is served, [logout]
    redirects to the login page and empties the session, and the
    dashboard is then refused. *)
Theorem login_dashboard_logout req w :
  (login req w).1 = redirect (url_for "dashboard") →
  let w1 := (login req w).2 in
  dashboard w1 = (render_template "user/dashboard.html", w1)
  ∧ logout w1 = (redirect (url_for "login"), set_current_user None w1)
  ∧ dashboard (logout w1).2
    = (unauthorized (url_for "login"), set_current_user None w1).
Proof.
  intros Hok w1. subst w1.
  assert (∃ user, user ∈ users w
            ∧ (login req w).2 = set_current_user (Some (id user)) w)
    as (user & Hin & ->).
  { revert Hok. unfold login, login_validated.
    destruct (is_submitted req && LoginForm_validate req); [|done].
    destruct (py_or _ _) as [user|] eqn:Hfound; [|done].
    destruct (check_password_hash _ _); [|done].
    intros _. exists user. by apply py_or_Some_elem in Hfound as [? _]. }
  apply load_user_stored in Hin as [row Hrow].
  unfold dashboard, logout, login_required. simpl. by rewrite Hrow.
Qed.

(** X11. A request whose method is not POST changes neither the table
    nor the short codes: it leaves the state as it was, but for a GET or
    HEAD of [/logout] from a logged-in session, which empties the
    session. *)
Theorem dispatch_not_post r s req w :
  method req ≠ POST →
  (dispatch r s req w).2 = w
  ∨ (r = Logout ∧ (dispatch r s req w).2 = set_current_user None w).
Proof.
  intros Hm. unfold dispatch.
  destruct (decide (method req = OPTIONS)); [by left|].
  destruct (admits r (method req)) eqn:Hadm; [|by left].
  assert (is_submitted req = false) as Hsub.
  { unfold is_submitted. destruct (method req); try done;
      by destruct r. }
  destruct r.
  - by left.
  - left. apply url_state_unchanged.
  - left. unfold login. by rewrite Hsub.
  - left. unfold dashboard, login_required.
    by destruct (current_user w ≫= _).
  - unfold logout, login_required.
    destruct (current_user w ≫= _); [by right | by left].
  - left. unfold register. by rewrite Hsub.
  - left. apply redirection_state_unchanged.
  - by left.
  - by left.
Qed.

(** X13. No request writes the store of short codes: after any run it is
    the store the run began with (the helpers of [utility] that the views
    call, [get_long_url] and [get_all_docs], taken to only read it). *)
Theorem run_urls_unchanged trace w :
  urls (run trace w) = urls w.
Proof.
  revert w. induction trace as [|[[r s] req] trace IH]; intros w; [done|].
  simpl. rewrite IH. unfold dispatch.
  destruct (decide (method req = OPTIONS)); [done|].
  destruct (admits r (method req)); [|done].
  destruct r; try done.
  - by rewrite url_state_unchanged.
  - unfold login, login_validated.
    destruct (is_submitted req && LoginForm_validate req); [|done].
    destruct (py_or _ _) as [user|]; [|done].
    by destruct (check_password_hash _ _).
  - unfold dashboard, login_required. by destruct (current_user w ≫= _).
  - unfold logout, login_required. by destruct (current_user w ≫= _).
  - unfold register.
    destruct (is_submitted req && RegisterForm_validate req (users w));
      [|done].
    rewrite register_validated_cases. by repeat case_bool_decide.
  - by rewrite redirection_state_unchanged.
Qed.

Lemma dispatch_session_loads r s req w :
  session_loads w → session_loads (dispatch r s req w).2.
Proof.
  intros Hw. unfold dispatch.
  destruct (decide (method req = OPTIONS)); [done|].
  destruct (admits r (method req)); [|done].
  destruct r; try done.
  - by rewrite url_state_unchanged.
  - unfold login, login_validated.
    destruct (is_submitted req && LoginForm_validate req); [|done].
    destruct (py_or _ _) as [user|] eqn:Hfound; [|done].
    destruct (check_password_hash _ _); [|done].
    intros i [= <-]. simpl. apply load_user_stored.
    by apply py_or_Some_elem in Hfound as [? _].
  - unfold dashboard, login_required. by destruct (current_user w ≫= _).
  - unfold logout, login_required.
    destruct (current_user w ≫= _); [|done]. by intros i.
  - unfold register.
    destruct (is_submitted req && RegisterForm_validate req (users w));
      [|done].
    rewrite register_validated_cases. repeat case_bool_decide; try done.
    intros i Hi. simpl in *. by apply load_user_app, Hw.
  - by rewrite redirection_state_unchanged.
Qed.

(** X14. The session never dangles: if the id it holds is the id of a
    stored row, it still is after any run, so a session that a login
    opened stays good for the dashboard until a logout. *)
Theorem run_session_loads trace w :
  session_loads w → session_loads (run trace w).
Proof.
  revert w. induction trace as [|[[r s] req] trace IH]; intros w Hw; [done|].
  simpl. by apply IH, dispatch_session_loads.
Qed.

End LoginMore.

(** ** Registering, then logging in *)

Lemma RegisterForm_validate_some req tbl :
  RegisterForm_validate req tbl = true →
  csrf_valid req = true
  ∧ (∃ u, form req !! "username" = Some u ∧ 4 ≤ String.length u ≤ 36)
  ∧ (∃ pw, form req !! "password" = Some pw ∧ 8 ≤ String.length pw ≤ 16)
  ∧ (∃ e, form req !! "email" = Some e ∧ 8 ≤ String.length e ≤ 16).
Proof.
  unfold RegisterForm_validate.
  rewrite validate_username_never_fails, andb_true_r, !andb_true_iff.
  rewrite !field_valid by lia. tauto.
Qed.

Lemma is_submitted_POST req : method req = POST → is_submitted req = true.
Proof. unfold is_submitted. by intros ->. Qed.

Section RegisterLogin.

Context {salt : Type}.
Variable generate_password_hash : salt → string → string.
Variable check_password_hash : string → string → bool.

Local Abbreviation register := (register generate_password_hash).
Local Abbreviation login := (login check_password_hash).

(** bcrypt verifies a password against a hash made of it. *)
Hypothesis bcrypt_check_hash :
  ∀ s pw, check_password_hash (generate_password_hash s pw) pw = true.

(** X8. Whoever has just registered can log in: after a successful
    [register], a login form that carries the same username and the same
    password is answered with the redirect to the dashboard, and the
    session holds the id of the new row. *)
Theorem register_then_login s req req2 w :
  (register s req w).1 = redirect (url_for "login") →
  method req2 = POST →
  csrf_valid req2 = true →
  form req2 !! "username" = form req !! "username" →
  form req2 !! "password" = form req !! "password" →
  login req2 (register s req w).2
  = (redirect (url_for "dashboard"),
     set_current_user (Some (next_id (users w))) (register s req w).2).
Proof.
  intros Hok Hm Hcsrf Hu Hp.
  pose proof (register_success_validated _ _ _ _ Hok) as Hv.
  revert Hok. unfold register. rewrite Hv. intros Hok.
  apply register_validated_success in Hok as (Hnew & _ & ->).
  apply andb_true_iff in Hv as [_ Hv].
  apply RegisterForm_validate_some in Hv as (_ & Hfu & Hfp & _).
  assert (LoginForm_validate req2 = true) as Hv2.
  { apply LoginForm_validate_iff. by rewrite Hu, Hp. }
  unfold login. rewrite (is_submitted_POST _ Hm), Hv2. simpl.
  unfold login_validated, data. rewrite Hu, Hp. simpl.
  rewrite first_by_username_last by done. simpl.
  by rewrite bcrypt_check_hash.
Qed.

(** X9. The same by email: a login form that carries the email of the
    registration as its identifier is answered with the redirect to the
    dashboard, provided no stored row has that string as its username;
    such a row would be looked up first. *)
Theorem register_then_login_by_email s req req2 w :
  (register s req w).1 = redirect (url_for "login") →
  method req2 = POST →
  csrf_valid req2 = true →
  form req2 !! "username" = form req !! "email" →
  form req2 !! "password" = form req !! "password" →
  (data "email" req ∉ username <$> users (register s req w).2) →
  login req2 (register s req w).2
  = (redirect (url_for "dashboard"),
     set_current_user (Some (next_id (users w))) (register s req w).2).
Proof.
  intros Hok Hm Hcsrf Hu Hp.
  pose proof (register_success_validated _ _ _ _ Hok) as Hv.
  revert Hok. unfold register. rewrite Hv. intros Hok.
  apply register_validated_success in Hok as (_ & Hnew & ->).
  intros Hshadow%first_by_username_None.
  apply andb_true_iff in Hv as [_ Hv].
  apply RegisterForm_validate_some in Hv as (_ & _ & Hfp & (e & Hfe & He)).
  assert (LoginForm_validate req2 = true) as Hv2.
  { apply LoginForm_validate_iff. rewrite Hu, Hp, Hfe.
    split; [done|]. split; [|done]. exists e. split; [done | lia]. }
  unfold login. rewrite (is_submitted_POST _ Hm), Hv2. simpl.
  assert (data "username" req2 = data "email" req) as ->
    by (unfold data; by rewrite Hu).
  assert (data "password" req2 = data "password" req) as ->
    by (unfold data; by rewrite Hp).
  unfold login_validated. cbn [users set_users] in Hshadow |- *.
  rewrite Hshadow. simpl.
  rewrite first_by_email_last by done. simpl.
  by rewrite bcrypt_check_hash.
Qed.

End RegisterLogin.

(** ** Instances of the further properties *)

Lemma demo_check_hash s pw : demo_check (demo_hash s pw) pw = true.
Proof.
  unfold demo_check. apply existsb_exists. exists (s mod 62). split.
  - apply in_seq. pose proof (Nat.mod_upper_bound s 62). lia.
  - apply String.eqb_eq. unfold demo_hash, demo_char.
    by rewrite Nat.Div0.mod_mod, Nat.Div0.add_mod_idemp_l.
Qed.

Lemma run_rows_well_formed_witness :
  Forall row_well_formed (users empty_world)
  ∧ Forall row_well_formed
      (users (run demo_hash demo_check demo_trace empty_world)).
Proof.
  assert (Forall row_well_formed (users empty_world)) as H
    by (simpl; apply Forall_nil_2).
  split; [exact H|].
  exact (run_rows_well_formed demo_hash demo_check demo_hash_length
           demo_trace empty_world H).
Defined.

Lemma login_success_sound_witness :
  (login demo_check (login_form "alice" "pw12345678") alice_world).1
    = redirect (url_for "dashboard")
  ∧ ∃ user,
      user ∈ users alice_world
      ∧ (username user = "alice" ∨ email user = "alice")
      ∧ demo_check (password user) "pw12345678" = true
      ∧ (login demo_check (login_form "alice" "pw12345678") alice_world).2
        = set_current_user (Some (id user)) alice_world.
Proof.
  assert ((login demo_check (login_form "alice" "pw12345678") alice_world).1
            = redirect (url_for "dashboard")) as H
    by (vm_compute; reflexivity).
  split; [exact H|].
  exact (proj2 (login_success_sound demo_check
                  (login_form "alice" "pw12345678") alice_world H)).
Defined.

Lemma login_failure_unchanged_witness :
  (login demo_check (login_form "alice" "wrong-pass") alice_world).1
    ≠ redirect (url_for "dashboard")
  ∧ (login demo_check (login_form "alice" "wrong-pass") alice_world).2
    = alice_world.
Proof.
  assert ((login demo_check (login_form "alice" "wrong-pass") alice_world).1
            ≠ redirect (url_for "dashboard")) as H by by_computation.
  split; [exact H|].
  exact (login_failure_unchanged demo_check
           (login_form "alice" "wrong-pass") alice_world H).
Defined.

Lemma login_dashboard_logout_witness :
  (login demo_check (login_form "alice" "pw12345678") alice_world).1
    = redirect (url_for "dashboard")
  ∧ dashboard (set_current_user (Some 1) alice_world)
    = (render_template "user/dashboard.html",
       set_current_user (Some 1) alice_world).
Proof.
  assert ((login demo_check (login_form "alice" "pw12345678") alice_world).1
            = redirect (url_for "dashboard")) as H
    by (vm_compute; reflexivity).
  split; [exact H|].
  exact (proj1 (login_dashboard_logout demo_check
                  (login_form "alice" "pw12345678") alice_world H)).
Defined.

Lemma dispatch_not_post_witness :
  method (Request GET ∅ false) ≠ POST
  ∧ ((dispatch demo_hash demo_check Logout 0 (Request GET ∅ false)
        (set_current_user (Some 1) alice_world)).2
       = set_current_user (Some 1) alice_world
     ∨ (Logout = Logout
        ∧ (dispatch demo_hash demo_check Logout 0 (Request GET ∅ false)
             (set_current_user (Some 1) alice_world)).2
          = set_current_user None (set_current_user (Some 1) alice_world))).
Proof.
  assert (method (Request GET ∅ false) ≠ POST) as H by (simpl; discriminate).
  split; [exact H|].
  exact (dispatch_not_post demo_hash demo_check Logout 0 (Request GET ∅ false)
           (set_current_user (Some 1) alice_world) H).
Defined.

Lemma register_then_login_witness :
  (register demo_hash 1 (register_form "alice" "pw12345678" "alice@x.com")
     empty_world).1 = redirect (url_for "login")
  ∧ login demo_check (login_form "alice" "pw12345678") alice_world
    = (redirect (url_for "dashboard"),
       set_current_user (Some (next_id (users empty_world))) alice_world).
Proof.
  assert ((register demo_hash 1
             (register_form "alice" "pw12345678" "alice@x.com")
             empty_world).1 = redirect (url_for "login")) as H
    by (vm_compute; reflexivity).
  split; [exact H|].
  apply (register_then_login demo_hash demo_check demo_check_hash 1
           (register_form "alice" "pw12345678" "alice@x.com")
           (login_form "alice" "pw12345678") empty_world H);
    vm_compute; reflexivity.
Defined.

Lemma register_then_login_by_email_witness :
  (register demo_hash 1 (register_form "alice" "pw12345678" "alice@x.com")
     empty_world).1 = redirect (url_for "login")
  ∧ ("alice@x.com" ∉ username <$> users alice_world)
  ∧ login demo_check (login_form "alice@x.com" "pw12345678") alice_world
    = (redirect (url_for "dashboard"),
       set_current_user (Some (next_id (users empty_world))) alice_world).
Proof.
  assert ((register demo_hash 1
             (register_form "alice" "pw12345678" "alice@x.com")
             empty_world).1 = redirect (url_for "login")) as H
    by (vm_compute; reflexivity).
  assert ("alice@x.com" ∉ username <$> users alice_world) as Hshadow
    by by_computation.
  split; [exact H|]. split; [exact Hshadow|].
  apply (register_then_login_by_email demo_hash demo_check demo_check_hash 1
           (register_form "alice" "pw12345678" "alice@x.com")
           (login_form "alice@x.com" "pw12345678") empty_world H);
    try (vm_compute; reflexivity).
  exact Hshadow.
Defined.

Lemma run_session_loads_witness :
  session_loads empty_world
  ∧ session_loads (run demo_hash demo_check demo_trace empty_world).
Proof.
  assert (session_loads empty_world) as H by (intros i Hi; discriminate Hi).
  split; [exact H|].
  exact (run_session_loads demo_hash demo_check demo_trace empty_world H).
Defined.

(** In [demo_trace] the login succeeds, and the session it opens is still
    there at the end. *)
Example demo_trace_session :
  current_user (run demo_hash demo_check demo_trace empty_world) = Some 1.
Proof. vm_compute. reflexivity. Qed.

(** A row whose username is another row's email takes that row's place
    at login: the email is never reached. *)
Example login_email_shadowed :
  let w := (register demo_hash 2
              (register_form "robert" "pw-of-robert" "alice@x.com")
              (register demo_hash 1
                 (register_form "alice@x.com" "pw-of-alice" "a@alice.org")
                 empty_world).2).2 in
  (username <$> users w) = ["alice@x.com"; "robert"]
  ∧ login demo_check (login_form "alice@x.com" "pw-of-robert") w
    = (page_login_wrong_info, w).
Proof. vm_compute. split; reflexivity. Qed.

(** * Allocation under the uniqueness constraint *)

Lemma store_insert_unique_Some c long_url (store store' : gmap string string) :
  store_insert_unique c long_url store = Some store' ↔
  store !! c = None ∧ store' = <[c := long_url]> store.
Proof.
  unfold store_insert_unique. destruct (store !! c) as [v|].
  - split; [done | by intros [? _]].
  - split; [by intros [= <-] | by intros [_ ->]].
Qed.

Section CheckedAllocationFacts.

Variable candidate : string → gmap string string → nat → string.

Local Abbreviation allocate_retry := (allocate_retry candidate).
Local Abbreviation allocate_checked := (allocate_checked candidate).

(** A code that an allocation hands out passed the insert: it was free,
    the store gained this one mapping, and the code is one of the
    candidates of the attempts made. *)
Lemma allocate_retry_Allocated retries attempt long_url
    (store : gmap string string) c store' :
  allocate_retry retries attempt long_url store = Allocated c store' →
  store !! c = None
  ∧ store' = <[c := long_url]> store
  ∧ ∃ k, attempt ≤ k ≤ attempt + retries ∧ c = candidate long_url store k.
Proof.
  revert attempt. induction retries as [|retries IH]; intros attempt; simpl.
  - destruct (store_insert_unique _ _ _) as [s|] eqn:Hins; [|done].
    intros [= <- <-]. apply store_insert_unique_Some in Hins as [? ?].
    split; [done|]. split; [done|]. exists attempt. split; [lia | done].
  - destruct (store_insert_unique _ _ _) as [s|] eqn:Hins.
    + intros [= <- <-]. apply store_insert_unique_Some in Hins as [? ?].
      split; [done|]. split; [done|]. exists attempt. split; [lia | done].
    + intros (? & ? & k & ? & ?)%IH.
      split; [done|]. split; [done|]. exists k. split; [lia | done].
Qed.

(** A fault is surfaced only after every attempt has met a key of the
    store. *)
Lemma allocate_retry_StorageFault retries attempt long_url
    (store : gmap string string) :
  allocate_retry retries attempt long_url store = StorageFault →
  ∀ k, attempt ≤ k ≤ attempt + retries →
       is_Some (store !! candidate long_url store k).
Proof.
  revert attempt. induction retries as [|retries IH]; intros attempt; simpl.
  - unfold store_insert_unique.
    destruct (store !! candidate long_url store attempt) eqn:Hc; [|done].
    intros _ k Hk. assert (k = attempt) as -> by lia. by rewrite Hc.
  - unfold store_insert_unique.
    destruct (store !! candidate long_url store attempt) eqn:Hc; [|done].
    intros Hfault k Hk. destruct (decide (k = attempt)) as [->|Hne].
    + by rewrite Hc.
    + apply (IH _ Hfault). lia.
Qed.

(** C3. Two calls of [allocate] that each return a code return two
    different codes while the code of the first is still a key of the
    store, as it is while the mapping that the first call created is
    there; and the second call leaves what that key maps to as it found
    it.  This holds for every generator of candidates and every bound on
    the retries: it is the insert under the store's constraint that keeps
    a live code from being handed out again. *)
Theorem allocate_checked_codes_distinct retries1 retries2 long_url1 long_url2
    (store store_later : gmap string string) c1 store1 c2 store2 :
  allocate_checked retries1 long_url1 store = Allocated c1 store1 →
  is_Some (store_later !! c1) →
  allocate_checked retries2 long_url2 store_later = Allocated c2 store2 →
  store1 !! c1 = Some long_url1
  ∧ c2 ≠ c1
  ∧ store2 !! c1 = store_later !! c1.
Proof.
  unfold allocate_checked.
  intros (_ & -> & _)%allocate_retry_Allocated [v Hlive]
         (Hfree & -> & _)%allocate_retry_Allocated.
  assert (c2 ≠ c1) as Hne by (intros ->; congruence).
  split; [apply lookup_insert_eq|]. split; [done|].
  by rewrite lookup_insert_ne.
Qed.

(** The round trip of an allocation under the constraint. *)
Lemma allocate_checked_roundtrip retries long_url
    (store : gmap string string) c store' :
  allocate_checked retries long_url store = Allocated c store' →
  get_long_url c store' = Some long_url.
Proof.
  unfold allocate_checked, get_long_url.
  intros (_ & -> & _)%allocate_retry_Allocated. apply lookup_insert_eq.
Qed.

End CheckedAllocationFacts.

(** With the numerals as candidates and at least as many retries as the
    store has keys, an allocation always hands out a code. *)
Lemma allocate_checked_base62_succeeds retries long_url
    (store : gmap string string) :
  size store ≤ retries →
  ∃ c store',
    allocate_checked base62_candidate retries long_url store
    = Allocated c store'.
Proof.
  intros Hsize.
  destruct (allocate_checked base62_candidate retries long_url store)
    as [c store'|] eqn:Halloc; [by eauto|].
  exfalso. unfold allocate_checked in Halloc.
  pose proof (allocate_retry_StorageFault _ _ _ _ _ Halloc) as Hall.
  unfold base62_candidate in Hall.
  set (numerals := base62 <$> seq 0 (S retries)).
  assert (NoDup numerals) as Hnd.
  { apply NoDup_fmap_2; [|apply NoDup_seq]. intros n m. apply base62_inj. }
  assert (list_to_set numerals ⊆ dom store) as Hsub.
  { intros c Hc. apply elem_of_list_to_set in Hc.
    apply list_elem_of_fmap in Hc as (k & -> & Hk).
    apply elem_of_seq in Hk. apply elem_of_dom, Hall. lia. }
  apply subseteq_size in Hsub.
  rewrite size_list_to_set, size_dom in Hsub by done.
  unfold numerals in Hsub. rewrite length_fmap, length_seq in Hsub. lia.
Qed.

(** A generator that repeats itself gets one code out and then only
    faults, never the live code again. *)
Example allocate_checked_constant :
  allocate_checked constant_candidate 3 "https://example.com/a" ∅
    = Allocated "k3F9" {["k3F9" := "https://example.com/a"]}
  ∧ allocate_checked constant_candidate 3 "https://example.com/b"
      {["k3F9" := "https://example.com/a"]}
    = StorageFault.
Proof. split; vm_compute; reflexivity. Qed.

Lemma allocate_checked_codes_distinct_witness :
  allocate_checked base62_candidate 3 "https://example.com/a" ∅
    = Allocated "0" {["0" := "https://example.com/a"]}
  ∧ is_Some (({["0" := "https://example.com/a"]} : gmap string string) !! "0")
  ∧ allocate_checked base62_candidate 3 "https://example.com/b"
      {["0" := "https://example.com/a"]}
    = Allocated "1"
        (<["1" := "https://example.com/b"]>
           {["0" := "https://example.com/a"]})
  ∧ "1" ≠ "0".
Proof.
  assert (allocate_checked base62_candidate 3 "https://example.com/a" ∅
    = Allocated "0" {["0" := "https://example.com/a"]}) as H1
    by (vm_compute; reflexivity).
  assert (is_Some (({["0" := "https://example.com/a"]} : gmap string string)
                     !! "0")) as H2
    by (exists "https://example.com/a"; vm_compute; reflexivity).
  assert (allocate_checked base62_candidate 3 "https://example.com/b"
      {["0" := "https://example.com/a"]}
    = Allocated "1"
        (<["1" := "https://example.com/b"]>
           {["0" := "https://example.com/a"]})) as H3
    by (vm_compute; reflexivity).
  split; [exact H1|]. split; [exact H2|]. split; [exact H3|].
  exact (proj1 (proj2 (allocate_checked_codes_distinct base62_candidate 3 3
                         "https://example.com/a" "https://example.com/b"
                         ∅ _ _ _ _ _ H1 H2 H3))).
Defined.

(** * Registrations that overlap *)

Section Overlap.

Context {salt : Type}.
Variable generate_password_hash : salt → string → string.

Local Abbreviation register_validated :=
  (register_validated generate_password_hash).
Local Abbreviation register_write := (register_write generate_password_hash).
Local Abbreviation register_overlapped :=
  (register_overlapped generate_password_hash).

(** Served alone, the validated branch of [register] is its tests and
    then, when they pass, its write, on one and the same table. *)
Lemma register_validated_split s u pw e w :
  register_validated s u pw e w =
    match register_tests u e (users w) with
    | Some page => (page, w)
    | None => register_write s u pw e w
    end.
Proof.
  unfold register_validated, register_tests, register_write.
  destruct (check_username u (users w)); [|done].
  by destruct (check_email e (users w)).
Qed.

Lemma register_tests_pass u e tbl :
  u ∉ username <$> tbl → e ∉ email <$> tbl → register_tests u e tbl = None.
Proof.
  intros Hu%check_username_true He%check_email_true.
  unfold register_tests. by rewrite Hu, He.
Qed.

Lemma register_write_new s u pw e w :
  u ∉ username <$> users w →
  register_write s u pw e w =
    (redirect (url_for "login"),
     set_users (users w ++
       [mkUser (next_id (users w)) u (generate_password_hash s pw) e]) w).
Proof.
  intros Hu%check_username_true. unfold register_write.
  by rewrite db_add_commit_checked.
Qed.

Lemma register_write_taken s u pw e w :
  u ∈ username <$> users w →
  register_write s u pw e w = (server_error "IntegrityError", w).
Proof.
  intros Hu. unfold register_write, db_add_commit.
  rewrite username_taken_existsb.
  destruct (check_username u (users w)) eqn:Hc; [|done].
  by apply check_username_true in Hc.
Qed.

(** C6. The uniqueness of the emails does not hold at all times.  Two
    validated registrations with two new usernames and one and the same
    new email, served at the same time, both pass the test of the email
    on the table they read, and both commit, for the [email] column has
    no [unique=True] as the [username] column has: both are answered with
    the redirect to the login page, and the table holds two rows with
    that email. *)
Theorem register_overlap_duplicate_email s1 s2 u1 u2 pw1 pw2 e w :
  u1 ≠ u2 →
  (u1 ∉ username <$> users w) →
  (u2 ∉ username <$> users w) →
  (e ∉ email <$> users w) →
  let row1 := mkUser (next_id (users w)) u1 (generate_password_hash s1 pw1) e in
  let row2 := mkUser (next_id (users w ++ [row1])) u2
                     (generate_password_hash s2 pw2) e in
  register_overlapped s1 u1 pw1 e s2 u2 pw2 e w
  = (redirect (url_for "login"), redirect (url_for "login"),
     set_users (users w ++ [row1; row2]) w)
  ∧ ¬ users_unique (users (register_overlapped s1 u1 pw1 e s2 u2 pw2 e w).2).
Proof.
  intros Hne Hu1 Hu2 He row1 row2.
  assert (register_overlapped s1 u1 pw1 e s2 u2 pw2 e w
          = (redirect (url_for "login"), redirect (url_for "login"),
             set_users (users w ++ [row1; row2]) w)) as Hrun.
  { unfold register_overlapped.
    rewrite !register_tests_pass by done.
    rewrite register_write_new by done.
    rewrite register_write_new.
    - simpl. by rewrite <- app_assoc.
    - simpl. rewrite fmap_app. apply not_elem_of_app. split; [done|].
      simpl. apply not_elem_of_cons. split; [done | apply not_elem_of_nil]. }
  split; [exact Hrun|]. rewrite Hrun. simpl.
  intros [_ Hemails]. rewrite fmap_app in Hemails.
  apply NoDup_app in Hemails as (_ & _ & Hdup). simpl in Hdup.
  apply NoDup_cons in Hdup as [Hin _]. apply Hin, list_elem_of_here.
Qed.

(** The usernames are kept apart by the store itself: of two overlapping
    registrations with one new username the second commit is refused, an
    [IntegrityError] that the view does not catch, and one row is
    stored. *)
Lemma register_overlap_same_username s1 s2 u pw1 pw2 e1 e2 w :
  (u ∉ username <$> users w) →
  (e1 ∉ email <$> users w) →
  (e2 ∉ email <$> users w) →
  register_overlapped s1 u pw1 e1 s2 u pw2 e2 w
  = (redirect (url_for "login"), server_error "IntegrityError",
     set_users (users w ++
       [mkUser (next_id (users w)) u (generate_password_hash s1 pw1) e1]) w).
Proof.
  intros Hu He1 He2. unfold register_overlapped.
  rewrite !register_tests_pass by done.
  rewrite register_write_new by done.
  rewrite register_write_taken; [done|].
  simpl. rewrite fmap_app. apply elem_of_app. right. apply list_elem_of_here.
Qed.

End Overlap.

Lemma register_overlap_duplicate_email_witness :
  "alice" ≠ "robert"
  ∧ ("alice" ∉ username <$> users empty_world)
  ∧ ("robert" ∉ username <$> users empty_world)
  ∧ ("shared@x.com" ∉ email <$> users empty_world)
  ∧ register_overlapped demo_hash 1 "alice" "pw12345678" "shared@x.com"
                        2 "robert" "pw87654321" "shared@x.com" empty_world
    = (redirect (url_for "login"), redirect (url_for "login"),
       set_users
         [mkUser 1 "alice" (demo_hash 1 "pw12345678") "shared@x.com";
          mkUser 2 "robert" (demo_hash 2 "pw87654321") "shared@x.com"]
         empty_world)
  ∧ ¬ users_unique
        (users (register_overlapped demo_hash 1 "alice" "pw12345678"
                  "shared@x.com" 2 "robert" "pw87654321" "shared@x.com"
                  empty_world).2).
Proof.
  assert ("alice" ≠ "robert") as H0 by discriminate.
  assert ("alice" ∉ username <$> users empty_world) as H1
    by apply not_elem_of_nil.
  assert ("robert" ∉ username <$> users empty_world) as H2
    by apply not_elem_of_nil.
  assert ("shared@x.com" ∉ email <$> users empty_world) as H3
    by apply not_elem_of_nil.
  split; [exact H0|]. split; [exact H1|]. split; [exact H2|].
  split; [exact H3|].
  exact (register_overlap_duplicate_email demo_hash 1 2 "alice" "robert"
           "pw12345678" "pw87654321" "shared@x.com" empty_world
           H0 H1 H2 H3).
Defined.

(** Served one after the other, the same two registrations end with the
    second one refused. *)
Example register_sequential_email_taken :
  register_validated demo_hash 2 "robert" "pw87654321" "shared@x.com"
    (register_validated demo_hash 1 "alice" "pw12345678" "shared@x.com"
       empty_world).2
  = (page_email_exists,
     (register_validated demo_hash 1 "alice" "pw12345678" "shared@x.com"
        empty_world).2).
Proof. vm_compute. reflexivity. Qed.
